(** * A shallow embedding of the stuckAI trading console front end

    The handlers of the React pages (Trade.jsx, ManualTrade.jsx, Account.jsx,
    Risk.jsx, Dashboard.jsx, the MainLayout guard and authApi.js) are modelled
    as computations in a small state-and-exception monad.  The state is the
    page's own React state together with the browser's localStorage, and a
    trace of the observable effects (alerts, HTTP requests, navigations).
    The outcome of every awaited HTTP call is an input of the handler. *)

From Stdlib Require Import QArith Lqa.
From stdpp Require Import base gmap strings list.

Set Warnings "-register-all".

(* ------------------------------------------------------------------ *)
(** ** JavaScript values as they come out of a JSON response *)

Module Js.

(** JSON numbers are finite doubles; every finite double is a rational. *)
Inductive jsval : Type :=
| JUndef
| JNull
| JBool (b : bool)
| JNum (q : Q)
| JStr (s : string)
| JArr (xs : list jsval)
| JObj (fields : list (string * jsval)).

(** The value thrown by a property read on [null] or [undefined]. *)
Definition type_error : jsval := JObj [("name", JStr "TypeError")].

Fixpoint assoc (k : string) (fs : list (string * jsval)) : jsval :=
  match fs with
  | [] => JUndef
  | (k', v) :: fs' => if String.eqb k k' then v else assoc k fs'
  end.

(** [v.k] for a named (non-index, non-[length]) property: reading from
    [null] or [undefined] throws a TypeError ([None]); primitives and
    arrays have no such own property and give [undefined]. *)
Definition get_prop (v : jsval) (k : string) : option jsval :=
  match v with
  | JUndef | JNull => None
  | JObj fs => Some (assoc k fs)
  | _ => Some JUndef
  end.

(** [v?.k] *)
Definition get_opt (v : jsval) (k : string) : jsval :=
  match get_prop v k with Some w => w | None => JUndef end.

Definition truthy (v : jsval) : bool :=
  match v with
  | JUndef | JNull => false
  | JBool b => b
  | JNum q => negb (Qeq_bool q 0)
  | JStr s => negb (String.eqb s "")
  | JArr _ | JObj _ => true
  end.

(** [a || b] *)
Definition js_or (a b : jsval) : jsval := if truthy a then a else b.

(** [Array.isArray(v)] *)
Definition is_array (v : jsval) : bool :=
  match v with JArr _ => true | _ => false end.

(** [xs[0]] on an array: [undefined] when the array is empty. *)
Definition index0 (v : jsval) : jsval :=
  match v with
  | JArr (x :: _) => x
  | _ => JUndef
  end.

End Js.

Import Js.

(* ------------------------------------------------------------------ *)
(** ** Effects and the handler monad *)

Inductive effect : Type :=
| Alert (msg : string)                            (** [alert(msg)] *)
| Request (meth : string) (path : string) (payload : jsval)
    (** an axios call; [payload] is its body or its query parameters *)
| Navigate (path : string).                       (** [navigate(path)] *)

(** The outcome of one awaited axios call: [res.data] or the rejection. *)
Inductive response : Type :=
| Resolved (data : jsval)
| Rejected (err : jsval).

Inductive outcome (A : Type) : Type :=
| Ret (a : A)
| Throw (e : jsval).
Arguments Ret {A} a.
Arguments Throw {A} e.

(** localStorage: keys to the stored values. *)
Abbreviation storage := (gmap string jsval).

Section Handler.
Context {S : Type}.

(** [page] is the React state of the page, [store] the localStorage and
    [trace] the effects performed, most recent first. *)
Record env : Type := mkEnv { page : S; store : storage; trace : list effect }.

Definition M (A : Type) : Type := env -> outcome A * env.

Definition ret {A} (a : A) : M A := fun e => (Ret a, e).

Definition bind {A B} (m : M A) (k : A -> M B) : M B :=
  fun e => match m e with
           | (Ret a, e') => k a e'
           | (Throw x, e') => (Throw x, e')
           end.

Definition throw {A} (x : jsval) : M A := fun e => (Throw x, e).

(** [try { m } catch (err) { h(err) }]: updates made by [m] before it threw
    are kept, as in JavaScript. *)
Definition try_catch {A} (m : M A) (h : jsval -> M A) : M A :=
  fun e => match m e with
           | (Ret a, e') => (Ret a, e')
           | (Throw x, e') => h x e'
           end.

Definition emit (f : effect) : M unit :=
  fun e => (Ret tt, mkEnv (page e) (store e) (f :: trace e)).

Definition alert (msg : string) : M unit := emit (Alert msg).
Definition navigate (path : string) : M unit := emit (Navigate path).

(** [await api.<meth>(path, body)] answered by [r]: the request is sent,
    then [res.data] is returned or the rejection is thrown. *)
Definition call (meth path : string) (body : jsval) (r : response) : M jsval :=
  bind (emit (Request meth path body)) (fun _ =>
    match r with
    | Resolved d => ret d
    | Rejected x => throw x
    end).

(** The state value captured by the handler's closure. *)
Definition get_page : M S := fun e => (Ret (page e), e).

Definition set_page (f : S -> S) : M unit :=
  fun e => (Ret tt, mkEnv (f (page e)) (store e) (trace e)).

(** Property read that throws on [null]/[undefined]. *)
Definition prop (v : jsval) (k : string) : M jsval :=
  match get_prop v k with
  | Some w => ret w
  | None => throw type_error
  end.

Definition getItem (k : string) : M jsval :=
  fun e => (Ret (match store e !! k with Some v => v | None => JNull end), e).
Definition setItem (k : string) (v : jsval) : M unit :=
  fun e => (Ret tt, mkEnv (page e) (<[k := v]> (store e)) (trace e)).
Definition removeItem (k : string) : M unit :=
  fun e => (Ret tt, mkEnv (page e) (delete k (store e)) (trace e)).

End Handler.

Arguments env : clear implicits.
Arguments M : clear implicits.

Notation "x <- m ;; k" := (bind m (fun x => k))
  (at level 95, m at next level, right associativity).
Notation "m ;;; k" := (bind m (fun _ => k))
  (at level 95, right associativity).

Definition has_request {S} (e : env S) : Prop :=
  exists m p b, In (Request m p b) (trace e).

(* ------------------------------------------------------------------ *)
(** ** Trade.jsx: the auto-trade control *)

Module Trade.

(** The React state of the [Trade] page. *)
Record trade_state : Type := mkTrade {
  autoTradeEnabled : bool;    (** [useState(false)] *)
  autoTradeResult : jsval;    (** [useState(null)] *)
  perf : jsval;               (** [useState(null)] *)
  perfSnapshots : jsval       (** [useState([])] *)
}.

Definition trade_init : trade_state := mkTrade false JNull JNull (JArr []).

Definition setAutoTradeEnabled (b : bool) : M trade_state unit :=
  set_page (fun s => mkTrade b (autoTradeResult s) (perf s) (perfSnapshots s)).
Definition setAutoTradeResult (v : jsval) : M trade_state unit :=
  set_page (fun s => mkTrade (autoTradeEnabled s) v (perf s) (perfSnapshots s)).
Definition setPerf (v : jsval) : M trade_state unit :=
  set_page (fun s => mkTrade (autoTradeEnabled s) (autoTradeResult s) v (perfSnapshots s)).
Definition setPerfSnapshots (v : jsval) : M trade_state unit :=
  set_page (fun s => mkTrade (autoTradeEnabled s) (autoTradeResult s) (perf s) v).

(** The alert texts, translated: "자동매매 OFF입니다.", "자동매매 1회 실행 완료",
    "자동매매 실행 실패", "성과 요약 조회 실패", "자동매매 상태 로드 실패",
    "자동매매 설정 저장 실패". *)
Definition msg_off := "auto-trade is OFF".
Definition msg_run_done := "auto-trade run complete".
Definition msg_run_failed := "auto-trade run failed".
Definition msg_perf_failed := "performance summary load failed".
Definition msg_load_failed := "auto-trade config load failed".
Definition msg_save_failed := "auto-trade config save failed".

(** [runAutoTrade]; the X-API-Key header and console logging are omitted. *)
Definition runAutoTrade (r : response) : M trade_state unit :=
  s <- get_page ;;
  if negb (autoTradeEnabled s) then alert msg_off
  else try_catch
         (data <- call "POST" "/trade/auto" (JObj []) r ;;
          setAutoTradeResult data ;;;
          alert msg_run_done)
         (fun _ => alert msg_run_failed).

(** [fetchPerformance] *)
Definition fetchPerformance (r : response) : M trade_state unit :=
  try_catch
    (data <- call "GET" "/metrics/performance" JUndef r ;;
     summary <- prop data "summary" ;;
     setPerf summary ;;;
     snaps <- prop data "snapshots" ;;
     setPerfSnapshots (js_or snaps (JArr [])))
    (fun _ => alert msg_perf_failed).

(** [loadAutoTradeConfig] *)
Definition loadAutoTradeConfig (r : response) : M trade_state unit :=
  try_catch
    (data <- call "GET" "/auto-trade/config" JUndef r ;;
     en <- prop data "enabled" ;;
     match en with
     | JBool b => setAutoTradeEnabled b        (** [typeof ... === "boolean"] *)
     | _ => ret tt
     end)
    (fun _ => alert msg_load_failed).

(** [toggleAutoTrade]: optimistic update, rollback on failure. *)
Definition toggleAutoTrade (r : response) : M trade_state unit :=
  s <- get_page ;;
  let next := negb (autoTradeEnabled s) in
  setAutoTradeEnabled next ;;;
  try_catch
    (call "PUT" "/auto-trade/config" (JObj [("enabled", JBool next)]) r ;;;
     ret tt)
    (fun _ => setAutoTradeEnabled (negb next) ;;; alert msg_save_failed).

(** The classification of one result row ([item.action > 0.3], ...). *)
Inductive action_class : Type := Buy | Sell | Hold.

(** The double nearest to the literal [0.3], exactly:
    5404319552844595 * 2^-54. *)
Definition thr : Q := 5404319552844595 # 18014398509481984.

(** [a < b] on finite numbers. *)
Definition Qltb (a b : Q) : bool := negb (Qle_bool b a).

Definition classify (action : Q) : action_class :=
  if Qltb thr action then Buy              (** "매수", #22c55e *)
  else if Qltb action (- thr) then Sell    (** "매도", #ef4444 *)
  else Hold.                               (** "관망", #facc15 *)

(** A row of [autoTradeResult.map]: [None] when [item.action] is not a
    number, where the row's [item.action.toFixed(2)] throws. *)
Definition classify_row (item : jsval) : option action_class :=
  match get_prop item "action" with
  | Some (JNum q) => Some (classify q)
  | _ => None
  end.

End Trade.

(* ------------------------------------------------------------------ *)
(** ** authApi.js: the session store *)

Module Session.

Definition TOKEN := "stuckai_token".
Definition NAME := "stuckai_name".
Definition ACCOUNT := "stuckai_account".

(** [loginUser(username, password)]: no try block, so a rejection of the
    POST propagates to the caller as it is.  localStorage keeps [String(v)];
    the model keeps [v]. *)
Definition loginUser {S} (username password : string) (r : response)
    : M S jsval :=
  data <- call "POST" "/login"
            (JObj [("username", JStr username); ("password", JStr password)]) r ;;
  tok <- prop data "token" ;;
  setItem TOKEN tok ;;;
  nm <- prop data "name" ;;
  setItem NAME nm ;;;
  ret data.

(** [logoutUser()] *)
Definition logoutUser {S} : M S unit :=
  removeItem TOKEN ;;;
  removeItem NAME.

End Session.

(* ------------------------------------------------------------------ *)
(** ** MainLayout.jsx: the account gate and the navigation guard *)

Module Layout.
Import Session.

(** The React state of [MainLayout]; [isLoggedIn], computed at render time
    as [!!localStorage.getItem("stuckai_token")], is a parameter of the
    handlers, as it is a constant of their closures. *)
Record layout_state : Type := mkLayout { hasAccount : bool }.

Definition setHasAccount (b : bool) : M layout_state unit :=
  set_page (fun _ => mkLayout b).

(** Translated alerts: "로그인 후 이용할 수 있습니다.", "계좌 설정 후 이용할 수 있습니다." *)
Definition msg_need_login := "log in first".
Definition msg_need_account := "set up an account first".

(** [syncAccountState], the body of the [useEffect] on [isLoggedIn]. *)
Definition syncAccountState (isLoggedIn : bool) (r : response)
    : M layout_state unit :=
  if negb isLoggedIn then
    setHasAccount false ;;;
    removeItem ACCOUNT
  else
    try_catch
      (token <- getItem TOKEN ;;
       data <- call "GET" "/me/account" token r ;;
       if truthy (get_opt data "has_config") then
         setHasAccount true ;;;
         setItem ACCOUNT (JStr "true")
       else
         setHasAccount false ;;;
         removeItem ACCOUNT)
      (fun _ => setHasAccount false ;;; removeItem ACCOUNT).

(** The [options] argument of [guardedNavigate], defaults applied. *)
Record nav_options : Type := mkOpts { requireLogin : bool; requireAccount : bool }.
Definition no_opts : nav_options := mkOpts false false.

(** [guardedNavigate(path, options)] *)
Definition guardedNavigate (isLoggedIn : bool) (path : string)
    (o : nav_options) : M layout_state unit :=
  s <- get_page ;;
  if requireLogin o && negb isLoggedIn then
    alert msg_need_login ;;; navigate "/login"
  else if requireAccount o && negb (hasAccount s) then
    alert msg_need_account ;;; navigate "/account"
  else navigate path.

(** The sidebar's calls of [guardedNavigate]. *)
Definition sidebar_routes : list (string * nav_options) :=
  [("/", no_opts);
   ("/dashboard", no_opts);
   ("/account", mkOpts true false);
   ("/manual-trade", mkOpts true true);
   ("/trade", mkOpts true true);
   ("/risk", mkOpts true true)].

(** The logout button's [onClick]. *)
Definition logout_button : M layout_state unit :=
  removeItem TOKEN ;;;
  removeItem NAME ;;;
  removeItem ACCOUNT ;;;
  navigate "/login".

End Layout.

(* ------------------------------------------------------------------ *)
(** ** Account.jsx: account status and balance *)

Module Account.
Import Session.

(** The React state of the [Account] page read by the handlers below; the
    form inputs are left out. *)
Record account_state : Type := mkAccount {
  savedAccount : jsval;     (** [useState(null)] *)
  realMode : bool;          (** [useState(false)] *)
  balanceParsed : jsval     (** [useState(null)] *)
}.

Definition setSavedAccount (v : jsval) : M account_state unit :=
  set_page (fun s => mkAccount v (realMode s) (balanceParsed s)).
Definition setRealMode (b : bool) : M account_state unit :=
  set_page (fun s => mkAccount (savedAccount s) b (balanceParsed s)).
Definition setBalanceParsed (v : jsval) : M account_state unit :=
  set_page (fun s => mkAccount (savedAccount s) (realMode s) v).

(** Translated alert: "잔고 조회 실패". *)
Definition msg_balance_failed := "balance load failed".

(** [loadAccount] *)
Definition loadAccount (r : response) : M account_state unit :=
  try_catch
    (token <- getItem TOKEN ;;
     data <- call "GET" "/me/account" token r ;;
     if truthy (get_opt data "has_config") then
       setSavedAccount data ;;;
       rm <- prop data "real_mode" ;;
       setRealMode (truthy rm) ;;;
       setItem ACCOUNT (JStr "true")
     else removeItem ACCOUNT)
    (fun _ => removeItem ACCOUNT).

(** [fetchBalance]; [balanceParsed] is the object [{ holdings, summary }]. *)
Definition fetchBalance (r : response) : M account_state unit :=
  try_catch
    (data <- call "GET" "/accounts/balance" JUndef r ;;
     raw0 <- prop data "raw" ;;
     let raw := js_or raw0 (JObj []) in
     o1 <- prop raw "output1" ;;
     let holdings := if is_array o1 then o1 else JArr [] in
     o2 <- prop raw "output2" ;;
     let summary := if is_array o2 then index0 o2 else JObj [] in
     setBalanceParsed (JObj [("holdings", holdings); ("summary", summary)]))
    (fun _ => alert msg_balance_failed).

End Account.

(* ------------------------------------------------------------------ *)
(** ** The other read models *)

Module ReadModels.

(** ManualTrade.jsx: the trade-history part of the page state. *)
Record history_state : Type := mkHistory {
  history : jsval;            (** [useState([])] *)
  loadingHistory : bool       (** [useState(false)] *)
}.

Definition setHistory (v : jsval) : M history_state unit :=
  set_page (fun s => mkHistory v (loadingHistory s)).
Definition setLoadingHistory (b : bool) : M history_state unit :=
  set_page (fun s => mkHistory (history s) b).

(** Translated alert: "거래 내역 조회 실패". *)
Definition msg_history_failed := "trade history load failed".

(** [fetchHistory]; the catch does not rethrow, so [finally] runs last. *)
Definition fetchHistory (historyFilter : jsval) (r : response)
    : M history_state unit :=
  try_catch
    (setLoadingHistory true ;;;
     data <- call "GET" "/orders/history"
               (JObj [("stock_code", js_or historyFilter JUndef)]) r ;;
     setHistory (js_or data (JArr [])))
    (fun _ => alert msg_history_failed) ;;;
  setLoadingHistory false.

(** Risk.jsx: the risk-rule list. *)
Record risk_state : Type := mkRisk { riskList : jsval }.

(** [loadRisk]: the catch block is empty. *)
Definition loadRisk (r : response) : M risk_state unit :=
  try_catch
    (data <- call "GET" "/settings/risk" JUndef r ;;
     set_page (fun _ => mkRisk data))
    (fun _ => ret tt).

(** Dashboard.jsx: candles and indicators. *)
Record chart_state : Type := mkChart {
  candles : jsval;            (** [useState([])] *)
  indicator : jsval           (** [useState(null)] *)
}.

(** Translated alert: "차트/지표 로드 실패". *)
Definition msg_chart_failed := "chart/indicator load failed".

(** [Promise.all([fetchChart(code), fetchIndicator(code)])]: both requests
    are sent; it rejects when either does. *)
Definition chart_and_indicator (stockCode : jsval) (r1 r2 : response)
    : M chart_state (jsval * jsval) :=
  emit (Request "GET" "/chart"
          (JObj [("stock_code", stockCode); ("limit", JNum 120)])) ;;;
  emit (Request "GET" "/indicator" (JObj [("stock_code", stockCode)])) ;;;
  match r1, r2 with
  | Resolved d1, Resolved d2 => ret (d1, d2)
  | Rejected x, _ => throw x
  | _, Rejected x => throw x
  end.

(** [loadData] *)
Definition loadData (stockCode : jsval) (r1 r2 : response)
    : M chart_state unit :=
  try_catch
    (p <- chart_and_indicator stockCode r1 r2 ;;
     cs <- prop (fst p) "candles" ;;
     set_page (fun s => mkChart (js_or cs (JArr [])) (indicator s)) ;;;
     set_page (fun s => mkChart (candles s) (snd p)))
    (fun _ => alert msg_chart_failed).

End ReadModels.

(* ------------------------------------------------------------------ *)
(** ** axiosInstance.js and the rest of authApi.js *)

Module Gateway.
Import Session.

(** [String(v) !== ""], the truthiness of the text localStorage holds for
    a stored value [v]: [String([])] is empty, an array of one element is
    that element's text ([null]/[undefined] giving ""), and a longer array
    has a comma. *)
Fixpoint stored_text_nonempty (v : jsval) : bool :=
  match v with
  | JStr s => negb (String.eqb s "")
  | JArr [] => false
  | JArr [x] =>
      match x with
      | JUndef | JNull => false
      | _ => stored_text_nonempty x
      end
  | _ => true
  end.

(** The truthiness of [localStorage.getItem(k)]: [null] when absent. *)
Definition item_truthy (o : option jsval) : bool :=
  match o with Some v => stored_text_nonempty v | None => false end.

(** The request interceptor: [Some v] when the header
    [Authorization: Bearer ${v}] is attached, [None] when none is. *)
Definition authorization (st : storage) : option jsval :=
  match st !! TOKEN with
  | Some v => if stored_text_nonempty v then Some v else None
  | None => None
  end.

(** [!!localStorage.getItem("stuckai_token")], MainLayout's [isLoggedIn]. *)
Definition isLoggedIn_of (st : storage) : bool := item_truthy (st !! TOKEN).

Definition lookupItem {S} (k : string) : M S (option jsval) :=
  fun e => (Ret (store e !! k), e).

(** [registerUser(username, password, name)] *)
Definition registerUser {S} (username password name : string) (r : response)
    : M S jsval :=
  data <- call "POST" "/signup"
            (JObj [("username", JStr username); ("password", JStr password);
                   ("name", JStr name)]) r ;;
  ret data.

(** [checkAuth()]: the query parameter [token] is the request's payload. *)
Definition checkAuth {S} (r : response) : M S jsval :=
  token <- lookupItem TOKEN ;;
  if negb (item_truthy token) then ret JNull
  else
    data <- call "GET" "/me" (match token with Some v => v | None => JNull end) r ;;
    ret data.

End Gateway.

(* ------------------------------------------------------------------ *)
(** ** Login.jsx and Signup.jsx *)

Module LoginPage.

(** The values [status] takes: "", "아이디와 비밀번호를 입력하세요.",
    "로그인 중...", "로그인 성공!" and "로그인 실패: " + msg. *)
Inductive login_status : Type :=
| StEmpty | StRequired | StLoggingIn | StSuccess | StFailed (msg : jsval).

Record login_state : Type := mkLogin {
  form_username : string;
  form_password : string;
  status : login_status
}.

Definition setStatus (x : login_status) : M login_state unit :=
  set_page (fun s => mkLogin (form_username s) (form_password s) x).

(** [err.response?.data?.detail || fallback] *)
Definition error_detail (err : jsval) (fallback : string) : M login_state jsval :=
  resp <- prop err "response" ;;
  ret (js_or (get_opt (get_opt resp "data") "detail") (JStr fallback)).

(** [handleSubmit]; the [setTimeout(() => navigate("/"), 500)] is recorded
    as the navigation it schedules.  Fallback text: "알 수 없는 오류". *)
Definition handleSubmit (r : response) : M login_state unit :=
  s <- get_page ;;
  setStatus StEmpty ;;;
  if String.eqb (form_username s) "" || String.eqb (form_password s) "" then
    setStatus StRequired
  else
    setStatus StLoggingIn ;;;
    try_catch
      (_ <- Session.loginUser (form_username s) (form_password s) r ;;
       setStatus StSuccess ;;;
       navigate "/")
      (fun err => msg <- error_detail err "unknown error" ;;
                  setStatus (StFailed msg)).

End LoginPage.

Module SignupPage.

(** The values [error] takes: "", "모든 항목을 입력해주세요.",
    "비밀번호가 일치하지 않습니다." and the server's message. *)
Inductive signup_error : Type :=
| ErrNone | ErrRequired | ErrMismatch | ErrServer (msg : jsval).

Record signup_state : Type := mkSignup {
  f_username : string; f_password : string; f_confirm : string; f_name : string;
  error : signup_error;
  success : bool           (** [success] is "" or "회원가입이 완료되었습니다!" *)
}.

Definition setError (x : signup_error) : M signup_state unit :=
  set_page (fun s => mkSignup (f_username s) (f_password s) (f_confirm s)
                              (f_name s) x (success s)).
Definition setSuccess (b : bool) : M signup_state unit :=
  set_page (fun s => mkSignup (f_username s) (f_password s) (f_confirm s)
                              (f_name s) (error s) b).

(** [handleSubmit]; fallback text "회원가입 실패"; the delayed
    [navigate("/login")] is recorded as scheduled. *)
Definition handleSubmit (r : response) : M signup_state unit :=
  s <- get_page ;;
  setError ErrNone ;;;
  setSuccess false ;;;
  if String.eqb (f_username s) "" || String.eqb (f_password s) ""
     || String.eqb (f_confirm s) "" || String.eqb (f_name s) "" then
    setError ErrRequired
  else if negb (String.eqb (f_password s) (f_confirm s)) then
    setError ErrMismatch
  else
    try_catch
      (_ <- Gateway.registerUser (f_username s) (f_password s) (f_name s) r ;;
       setSuccess true ;;;
       navigate "/login")
      (fun err =>
         resp <- prop err "response" ;;
         setError (ErrServer (js_or (get_opt (get_opt resp "data") "detail")
                                    (JStr "signup failed")))).

End SignupPage.

(* ------------------------------------------------------------------ *)
(** ** Risk.jsx: saving a rule *)

Module RiskPage.

(** The React state of the [Risk] page. *)
Record risk_page : Type := mkRiskPage {
  riskStock : string;         (** [useState("ALL")] *)
  riskMaxQty : string;
  riskMaxPct : string;
  riskMaxDailyBuy : string;
  riskActive : string;        (** [useState("on")] *)
  riskKey : string;
  riskList : jsval            (** [useState([])] *)
}.

Definition setRiskList (v : jsval) : M risk_page unit :=
  set_page (fun s => mkRiskPage (riskStock s) (riskMaxQty s) (riskMaxPct s)
                       (riskMaxDailyBuy s) (riskActive s) (riskKey s) v).

Section Save.
(** JavaScript's [Number] on the text of an input field. *)
Variable Number : string -> jsval.

(** [x ? Number(x) : null] *)
Definition number_or_null (x : string) : jsval :=
  if String.eqb x "" then JNull else Number x.

Definition risk_payload (s : risk_page) : jsval :=
  JObj [("max_position_shares", number_or_null (riskMaxQty s));
        ("max_weight_pct", number_or_null (riskMaxPct s));
        ("max_daily_buy_amount", number_or_null (riskMaxDailyBuy s));
        ("active", JBool (String.eqb (riskActive s) "on"))].

Definition risk_headers (s : risk_page) : jsval :=
  if String.eqb (riskKey s) "" then JObj []
  else JObj [("X-API-Key", JStr (riskKey s))].

(** The first, synchronous part of [loadRisk()] called without [await]:
    the request is sent; its answer is handled later by [loadRisk_resume]. *)
Definition loadRisk_start : M risk_page unit :=
  emit (Request "GET" "/settings/risk" JUndef).

Definition loadRisk_resume (r : response) : M risk_page unit :=
  try_catch
    (match r with
     | Resolved d => setRiskList d
     | Rejected x => throw x
     end)
    (fun _ => ret tt).

(** Translated alerts: "리스크 규칙 저장됨", "리스크 저장 실패". *)
Definition msg_risk_saved := "risk rule saved".
Definition msg_risk_failed := "risk rule save failed".

(** [saveRisk]; the PUT's payload is [{ data, headers }]. *)
Definition saveRisk (r : response) : M risk_page unit :=
  try_catch
    (s <- get_page ;;
     let stock := if String.eqb (riskStock s) "" then "ALL" else riskStock s in
     _ <- call "PUT" ("/settings/risk/" ++ stock)
            (JObj [("data", risk_payload s); ("headers", risk_headers s)]) r ;;
     alert msg_risk_saved ;;;
     loadRisk_start)
    (fun _ => alert msg_risk_failed).

End Save.

End RiskPage.

(* ------------------------------------------------------------------ *)
(** ** Account.jsx: saving the account configuration *)

Module AccountSave.
Import Session Account.

(** Translated alerts: "계좌 설정 저장 완료", "계좌 설정 저장 실패". *)
Definition msg_saved := "account saved".
Definition msg_save_failed := "account save failed".

(** [saveAccount]; the form inputs are its closure's values, and the
    payload of the PUT is [{ token, body }]. *)
Definition saveAccount (accountNo productCode kisAppKey kisAppSecret : string)
    (r : response) : M account_state unit :=
  try_catch
    (token <- getItem TOKEN ;;
     s <- get_page ;;
     data <- call "PUT" "/me/account"
               (JObj [("token", token);
                      ("body", JObj [("account_no", JStr accountNo);
                                     ("account_code", JStr productCode);
                                     ("kis_app_key", JStr kisAppKey);
                                     ("kis_app_secret", JStr kisAppSecret);
                                     ("real_mode", JBool (realMode s))])]) r ;;
     setSavedAccount data ;;;
     setItem ACCOUNT (JStr "true") ;;;
     alert msg_saved)
    (fun _ => alert msg_save_failed).

End AccountSave.

(* ------------------------------------------------------------------ *)
(** ** ManualTrade.jsx: orders and the history refresh *)

Module ManualTradePage.

(** [try { m } finally { f }] *)
Definition try_finally {S A} (m : M S A) (f : M S unit) : M S A :=
  fun e => match m e with
           | (o, e') => match f e' with
                        | (Ret _, e'') => (o, e'')
                        | (Throw x, e'') => (Throw x, e'')
                        end
           end.

(** The React state of the [ManualTrade] page. *)
Record mt_state : Type := mkMT {
  orderStock : string;        (** [useState("")] *)
  orderQty : jsval;           (** [useState(1)], then the input's text *)
  orderSide : string;         (** [useState("BUY")] *)
  orderResult : jsval;        (** [useState(null)] *)
  sending : bool;
  history : jsval;            (** [useState([])] *)
  historyFilter : string;
  loadingHistory : bool
}.

Definition setOrderResult (v : jsval) : M mt_state unit :=
  set_page (fun s => mkMT (orderStock s) (orderQty s) (orderSide s) v
                       (sending s) (history s) (historyFilter s) (loadingHistory s)).
Definition setSending (b : bool) : M mt_state unit :=
  set_page (fun s => mkMT (orderStock s) (orderQty s) (orderSide s) (orderResult s)
                       b (history s) (historyFilter s) (loadingHistory s)).
Definition setHistory (v : jsval) : M mt_state unit :=
  set_page (fun s => mkMT (orderStock s) (orderQty s) (orderSide s) (orderResult s)
                       (sending s) v (historyFilter s) (loadingHistory s)).
Definition setLoadingHistory (b : bool) : M mt_state unit :=
  set_page (fun s => mkMT (orderStock s) (orderQty s) (orderSide s) (orderResult s)
                       (sending s) (history s) (historyFilter s) b).

Definition history_req (filter : string) : effect :=
  Request "GET" "/orders/history"
    (JObj [("stock_code", if String.eqb filter "" then JUndef else JStr filter)]).

(** [fetchHistory()] up to its [await]: the loading flag and the request. *)
Definition fetchHistory_start : M mt_state unit :=
  s <- get_page ;;
  setLoadingHistory true ;;;
  emit (history_req (historyFilter s)).

(** The rest of [fetchHistory()] once the GET is answered. *)
Definition fetchHistory_resume (r : response) : M mt_state unit :=
  try_catch
    (match r with
     | Resolved d => setHistory (js_or d (JArr []))
     | Rejected x => throw x
     end)
    (fun _ => alert ReadModels.msg_history_failed) ;;;
  setLoadingHistory false.

(** Translated alerts: "종목코드를 입력하세요.", "주문 성공", "주문 실패". *)
Definition msg_need_stock := "enter a stock code".
Definition msg_order_ok := "order placed".
Definition msg_order_failed := "order failed".

Section Order.
(** JavaScript's [Number] on [orderQty]. *)
Variable Number : jsval -> jsval.

Definition order_req (s : mt_state) : effect :=
  Request "POST" "/orders/market"
    (JObj [("stock_code", JStr (orderStock s)); ("quantity", Number (orderQty s));
           ("side", JStr (orderSide s))]).

(** [sendOrder]; [fetchHistory()] is started without [await]. *)
Definition sendOrder (r : response) : M mt_state unit :=
  s <- get_page ;;
  if String.eqb (orderStock s) "" then alert msg_need_stock
  else
    try_finally
      (try_catch
         (setSending true ;;;
          emit (order_req s) ;;;
          data <- (match r with Resolved d => ret d | Rejected x => throw x end) ;;
          setOrderResult data ;;;
          alert msg_order_ok ;;;
          fetchHistory_start)
         (fun err =>
            alert msg_order_failed ;;;
            resp <- prop err "response" ;;
            setOrderResult (js_or (get_opt resp "data") (JObj []))))
      (setSending false).

End Order.

End ManualTradePage.

(* ================================================================== *)
(** * Properties *)

(** ** Sanity checks of the embedding on concrete inputs *)

Example classify_half : Trade.classify (1 # 2) = Trade.Buy.
Proof. reflexivity. Qed.

Example toggle_example :
  Trade.autoTradeEnabled
    (page (snd (Trade.toggleAutoTrade (Rejected JNull)
                  (mkEnv Trade.trade_init ∅ [])))) = false.
Proof. reflexivity. Qed.

Example balance_example :
  Account.balanceParsed
    (page (snd (Account.fetchBalance
                  (Resolved (JObj [("raw", JObj [("output2", JArr [])])]))
                  (mkEnv (Account.mkAccount JNull false JNull) ∅ []))))
  = JObj [("holdings", JArr []); ("summary", JUndef)].
Proof. reflexivity. Qed.

(** ** Auto-trade control *)

Module TradeProps.
Import Trade.

Definition put_config (b : bool) : effect :=
  Request "PUT" "/auto-trade/config" (JObj [("enabled", JBool b)]).

(** C1: after [toggleAutoTrade] resolves, the mirror is the negated value
    that the successful PUT submitted, or, when the PUT fails, the value it
    had before the toggle, with a failure alert after the request. *)
Theorem toggle_mirror_confirmed (r : response) (s : trade_state)
    (st : storage) (tr : list effect) :
  let e' := snd (toggleAutoTrade r (mkEnv s st tr)) in
  match r with
  | Resolved _ =>
      autoTradeEnabled (page e') = negb (autoTradeEnabled s) /\
      trace e' = put_config (negb (autoTradeEnabled s)) :: tr
  | Rejected _ =>
      autoTradeEnabled (page e') = autoTradeEnabled s /\
      trace e' = Alert msg_save_failed
                   :: put_config (negb (autoTradeEnabled s)) :: tr
  end.
Proof.
  destruct r; cbn; split; try reflexivity.
  apply negb_involutive.
Qed.

(** C7: [runAutoTrade] with the mirror off only alerts: the page state and
    the storage are unchanged and no request is sent. *)
Theorem run_disabled_no_request (r : response) (s : trade_state)
    (st : storage) (tr : list effect) (Hoff : autoTradeEnabled s = false) :
  snd (runAutoTrade r (mkEnv s st tr)) = mkEnv s st (Alert msg_off :: tr).
Proof. unfold runAutoTrade, bind, get_page; cbn. now rewrite Hoff. Qed.

Lemma run_disabled_no_request_witness :
  autoTradeEnabled trade_init = false /\
  snd (runAutoTrade (Resolved (JArr [])) (mkEnv trade_init ∅ []))
  = mkEnv trade_init ∅ [Alert msg_off].
Proof.
  split; [reflexivity |].
  apply (run_disabled_no_request (Resolved (JArr [])) trade_init ∅ []).
  reflexivity.
Defined.

(** C10: after the mount-time [loadAutoTradeConfig] resolves, the mirror is
    the response's [enabled] when that is a boolean, and stays [false]
    otherwise: on a rejected request (then with an alert), on a response
    whose [data] is [null]/[undefined] (the read throws, with an alert) and
    on a non-boolean [enabled]. *)
Theorem load_config_on_mount (r : response) (st : storage) (tr : list effect) :
  let e' := snd (loadAutoTradeConfig r (mkEnv trade_init st tr)) in
  let req := Request "GET" "/auto-trade/config" JUndef in
  match r with
  | Resolved d =>
      match get_prop d "enabled" with
      | Some (JBool b) => autoTradeEnabled (page e') = b /\ trace e' = req :: tr
      | Some _ => autoTradeEnabled (page e') = false /\ trace e' = req :: tr
      | None => autoTradeEnabled (page e') = false /\
                trace e' = Alert msg_load_failed :: req :: tr
      end
  | Rejected _ => autoTradeEnabled (page e') = false /\
                  trace e' = Alert msg_load_failed :: req :: tr
  end.
Proof.
  destruct r as [d | x]; [| cbn; split; reflexivity].
  unfold loadAutoTradeConfig, try_catch, bind, call, emit, ret, prop.
  cbn; destruct (get_prop d "enabled") as [[] |]; cbn; split; reflexivity.
Qed.

End TradeProps.

(** ** Action classification *)

Module ClassifyProps.
Import Trade.
Local Open Scope Q_scope.

Lemma Qltb_iff (a b : Q) : Qltb a b = true <-> a < b.
Proof.
  unfold Qltb. rewrite negb_true_iff. split.
  - intros H. apply Qnot_le_lt. intros H'. apply Qle_bool_iff in H'. congruence.
  - intros H. destruct (Qle_bool b a) eqn:E; [| reflexivity].
    apply Qle_bool_iff in E. exfalso. apply (Qlt_not_le a b H E).
Qed.

Lemma thr_pos : 0 < thr.
Proof. unfold thr, Qlt; cbn; lia. Qed.

(** C8: the class of a result row depends on [item.action] alone; on a
    number it is BUY exactly above the double [0.3], SELL exactly below
    [-0.3] and HOLD otherwise, so [0.3] and [-0.3] themselves are HOLD,
    and [0.5], [-0.5] and [0] are BUY, SELL and HOLD. *)
Theorem classify_thresholds (item : jsval) (q : Q)
    (Haction : get_prop item "action" = Some (JNum q)) :
  classify_row item = Some (classify q) /\
  (classify q = Buy <-> thr < q) /\
  (classify q = Sell <-> q < - thr) /\
  (classify q = Hold <-> - thr <= q /\ q <= thr) /\
  classify thr = Hold /\ classify (- thr) = Hold /\
  classify (1 # 2) = Buy /\ classify (- (1 # 2)) = Sell /\ classify 0 = Hold.
Proof.
  pose proof thr_pos as Hpos.
  split; [unfold classify_row; now rewrite Haction |].
  assert (Hc : (classify q = Buy /\ thr < q) \/
               (classify q = Sell /\ q < - thr) \/
               (classify q = Hold /\ - thr <= q /\ q <= thr)).
  { unfold classify.
    destruct (Qltb thr q) eqn:E1; [left; split; [reflexivity | now apply Qltb_iff] |].
    destruct (Qltb q (- thr)) eqn:E2;
      [right; left; split; [reflexivity | now apply Qltb_iff] |].
    right; right; split; [reflexivity |].
    split; apply Qnot_lt_le; intros H; apply Qltb_iff in H; congruence. }
  destruct Hc as [[Hq Hr] | [[Hq Hr] | [Hq [Hr1 Hr2]]]]; rewrite Hq;
    repeat split; try reflexivity; try discriminate; try lra;
    intros Hx; try destruct Hx; lra.
Qed.

Lemma classify_thresholds_witness :
  get_prop (JObj [("stock", JStr "005930"); ("action", JNum (2 # 5))]) "action"
    = Some (JNum (2 # 5)) /\
  classify_row (JObj [("stock", JStr "005930"); ("action", JNum (2 # 5))])
    = Some Buy.
Proof.
  split; [reflexivity |].
  destruct (classify_thresholds
              (JObj [("stock", JStr "005930"); ("action", JNum (2 # 5))])
              (2 # 5) eq_refl) as [H _].
  rewrite H. reflexivity.
Defined.

End ClassifyProps.

(** ** Navigation guard, account gate, session *)

Module LayoutProps.
Import Session Layout.

(** C2, as the claim states it, fails: a request with [requireAccount]
    but without [requireLogin], made while logged out (so [hasAccount] is
    [false]), is sent to the account set-up page, not to the login page. *)
Lemma guard_account_only_logged_out :
  trace (snd (guardedNavigate false "/manual-trade" (mkOpts false true)
                (mkEnv (mkLayout false) ∅ [])))
  = [Navigate "/account"; Alert msg_need_account].
Proof. reflexivity. Qed.

(** C2 (amended): whenever [requireLogin] is set and the user is logged
    out, the decision is the login redirect with its alert, whatever
    [requireAccount] and [hasAccount] are; and every sidebar call that
    sets [requireAccount] also sets [requireLogin]. *)
Theorem guard_login_first (path : string) (ra : bool) (s : layout_state)
    (st : storage) (tr : list effect) :
  snd (guardedNavigate false path (mkOpts true ra) (mkEnv s st tr))
    = mkEnv s st (Navigate "/login" :: Alert msg_need_login :: tr) /\
  Forall (fun po => implb (requireAccount (snd po)) (requireLogin (snd po)) = true)
    sidebar_routes.
Proof.
  split; [reflexivity |].
  repeat constructor.
Qed.

(** C3: when the account-status query fails, [syncAccountState] sets
    [hasAccount] to [false] and removes the stored account marker whatever
    they were before, and [loadAccount] of the Account page removes the
    marker too, leaving the rest of its state alone. *)
Theorem account_gate_fail_closed (x : jsval) (s : layout_state)
    (sa : Account.account_state) (st : storage) (tr : list effect) :
  let tok := match st !! TOKEN with Some v => v | None => JNull end in
  snd (syncAccountState true (Rejected x) (mkEnv s st tr))
    = mkEnv (mkLayout false) (delete ACCOUNT st)
            (Request "GET" "/me/account" tok :: tr) /\
  snd (Account.loadAccount (Rejected x) (mkEnv sa st tr))
    = mkEnv sa (delete ACCOUNT st) (Request "GET" "/me/account" tok :: tr) /\
  (delete ACCOUNT st : storage) !! ACCOUNT = None.
Proof.
  repeat split. apply lookup_delete_eq.
Qed.

(** C9: a rejected login request is rethrown unchanged (so the backend's
    message in it reaches the caller) and nothing is written to the
    storage: only the request itself is performed. *)
Theorem login_failure_untouched {S} (username password : string) (x : jsval)
    (s : S) (st : storage) (tr : list effect) :
  loginUser username password (Rejected x) (mkEnv s st tr)
  = (Throw x,
     mkEnv s st (Request "POST" "/login"
                   (JObj [("username", JStr username);
                          ("password", JStr password)]) :: tr)).
Proof. reflexivity. Qed.

Definition logged_in_store : storage :=
  <[TOKEN := JStr "tok"]> (<[NAME := JStr "u1"]> (<[ACCOUNT := JStr "true"]> ∅)).

(** C5: [logoutUser] of authApi.js clears the token and the name but keeps
    the stored account marker, which the layout's logout button (its
    sibling) removes; neither sends a request, and both return normally. *)
Theorem logout_user_keeps_account_marker :
  let e1 := logoutUser (mkEnv (mkLayout true) logged_in_store []) in
  let e2 := logout_button (mkEnv (mkLayout true) logged_in_store []) in
  fst e1 = Ret tt /\ trace (snd e1) = [] /\
  store (snd e1) !! TOKEN = None /\ store (snd e1) !! NAME = None /\
  store (snd e1) !! ACCOUNT = Some (JStr "true") /\
  fst e2 = Ret tt /\ trace (snd e2) = [Navigate "/login"] /\
  store (snd e2) !! TOKEN = None /\ store (snd e2) !! NAME = None /\
  store (snd e2) !! ACCOUNT = None.
Proof. vm_compute. repeat split. Qed.

End LayoutProps.

(** ** Read models *)

Module ReadModelProps.
Import Account ReadModels.

Definition balance_req : effect := Request "GET" "/accounts/balance" JUndef.

Lemma get_prop_or_default (v : jsval) (k : string) :
  get_prop (js_or v (JObj [])) k = Some (get_opt (js_or v (JObj [])) k).
Proof. destruct v; unfold js_or; cbn; repeat case_match; reflexivity. Qed.

(** C4, as the claim states it, fails: with [output2 = []] the summary is
    [raw.output2[0]], that is [undefined], not the default record [{}]. *)
Lemma balance_empty_output2_summary_undefined :
  let e' := snd (fetchBalance
                   (Resolved (JObj [("raw", JObj [("output1", JArr []);
                                                 ("output2", JArr [])])]))
                   (mkEnv (mkAccount JNull false JNull) ∅ [])) in
  get_opt (balanceParsed (page e')) "summary" = JUndef /\
  get_opt (balanceParsed (page e')) "summary" <> JObj [].
Proof. split; [reflexivity | discriminate]. Qed.

(** C4 (amended): for any object response, [fetchBalance] raises nothing
    (no alert) and stores [{ holdings, summary }] where holdings is
    [raw.output1] when that is an array and [[]] otherwise, and summary is
    the first element of [raw.output2] when that is an array, [undefined]
    when that array is empty, and [{}] when [output2] is not an array. *)
Theorem balance_parse_defaults (fs : list (string * jsval))
    (s : account_state) (st : storage) (tr : list effect) :
  let raw := js_or (assoc "raw" fs) (JObj []) in
  let e' := snd (fetchBalance (Resolved (JObj fs)) (mkEnv s st tr)) in
  let v := balanceParsed (page e') in
  trace e' = balance_req :: tr /\
  match get_opt raw "output1" with
  | JArr xs => get_opt v "holdings" = JArr xs
  | _ => get_opt v "holdings" = JArr []
  end /\
  match get_opt raw "output2" with
  | JArr [] => get_opt v "summary" = JUndef
  | JArr (x :: _) => get_opt v "summary" = x
  | _ => get_opt v "summary" = JObj []
  end.
Proof.
  unfold fetchBalance, try_catch, bind, call, emit, ret, prop; cbn.
  rewrite !get_prop_or_default; cbn.
  split; [reflexivity |].
  destruct (get_opt (js_or (assoc "raw" fs) (JObj [])) "output1") as [| | | | | xs |];
  destruct (get_opt (js_or (assoc "raw" fs) (JObj [])) "output2") as [| | | | | [| y ys] |];
  split; reflexivity.
Qed.

(** C6, as the claim states it, fails: a failed [loadRisk] leaves the list
    alone but raises no notice (its catch block is empty). *)
Lemma load_risk_failure_silent :
  let e' := snd (loadRisk (Rejected JNull) (mkEnv (mkRisk (JArr [])) ∅ [])) in
  trace e' = [Request "GET" "/settings/risk" JUndef] /\
  ~ (exists m, In (Alert m) (trace e')).
Proof.
  split; [reflexivity |].
  intros [m Hm]. cbn in Hm. destruct Hm as [Hm | []]. discriminate.
Qed.

(** C6 (amended): a failed fetch never changes the model it loads: the
    balance, the performance summary and snapshots, the trade history, the
    candles and indicators, and the risk-rule list keep their previous
    values; each failure raises an alert, except [loadRisk], which raises
    none. *)
Theorem failed_fetch_keeps_data (x : jsval) (r : response) (st : storage)
    (tr : list effect) (sa : account_state) (sp : Trade.trade_state)
    (sh : history_state) (filter : jsval) (sc : chart_state) (code : jsval)
    (sr : risk_state) :
  (let e := snd (fetchBalance (Rejected x) (mkEnv sa st tr)) in
   page e = sa /\ trace e = Alert msg_balance_failed :: balance_req :: tr) /\
  (let e := snd (Trade.fetchPerformance (Rejected x) (mkEnv sp st tr)) in
   page e = sp /\
   trace e = Alert Trade.msg_perf_failed
               :: Request "GET" "/metrics/performance" JUndef :: tr) /\
  (let e := snd (fetchHistory filter (Rejected x) (mkEnv sh st tr)) in
   history (page e) = history sh /\ loadingHistory (page e) = false /\
   hd_error (trace e) = Some (Alert msg_history_failed)) /\
  (let e := snd (loadData code (Rejected x) r (mkEnv sc st tr)) in
   page e = sc /\ hd_error (trace e) = Some (Alert msg_chart_failed)) /\
  (let e := snd (loadData code r (Rejected x) (mkEnv sc st tr)) in
   page e = sc /\ hd_error (trace e) = Some (Alert msg_chart_failed)) /\
  (let e := snd (loadRisk (Rejected x) (mkEnv sr st tr)) in
   page e = sr /\ trace e = Request "GET" "/settings/risk" JUndef :: tr).
Proof.
  destruct sa, sp, sh, sc, sr.
  repeat split; try reflexivity; destruct r; reflexivity.
Qed.

End ReadModelProps.

(* ================================================================== *)
(** * Further properties of the code *)

(** Unfold the handler monad's primitives and evaluate. *)
Ltac run_handler :=
  unfold try_catch, bind, get_page, set_page, emit, alert, navigate, call,
    ret, throw, prop, getItem, setItem, removeItem, Gateway.lookupItem in *;
  cbn in *.

(** Distinct localStorage keys. *)
Ltac keys_neq :=
  unfold Session.TOKEN, Session.NAME, Session.ACCOUNT; discriminate.

Module TradeExtra.
Import Trade TradeProps.

(** A toggle whose PUT is rejected leaves the whole page state as it was:
    the optimistic update is undone and nothing else moves. *)
Theorem toggle_rejected_restores_page (x : jsval) (s : trade_state)
    (st : storage) (tr : list effect) :
  snd (toggleAutoTrade (Rejected x) (mkEnv s st tr))
  = mkEnv s st (Alert msg_save_failed :: put_config (negb (autoTradeEnabled s)) :: tr).
Proof. destruct s as [[] ? ? ?]; reflexivity. Qed.

(** Two toggles that both succeed bring the page back to where it was,
    after PUTting the negated value and then the original one. *)
Theorem toggle_twice_roundtrip (d1 d2 : jsval) (s : trade_state)
    (st : storage) (tr : list effect) :
  snd (toggleAutoTrade (Resolved d2)
         (snd (toggleAutoTrade (Resolved d1) (mkEnv s st tr))))
  = mkEnv s st (put_config (autoTradeEnabled s)
                  :: put_config (negb (autoTradeEnabled s)) :: tr).
Proof. destruct s as [[] ? ? ?]; reflexivity. Qed.

(** With the mirror on, [runAutoTrade] sends one POST; on success the
    result becomes the response and a completion alert follows, on failure
    the page is unchanged and a failure alert follows. *)
Theorem run_enabled_outcomes (r : response) (s : trade_state)
    (st : storage) (tr : list effect) (Hon : autoTradeEnabled s = true) :
  let post := Request "POST" "/trade/auto" (JObj []) in
  snd (runAutoTrade r (mkEnv s st tr)) =
  match r with
  | Resolved d =>
      mkEnv (mkTrade true d (perf s) (perfSnapshots s)) st
            (Alert msg_run_done :: post :: tr)
  | Rejected _ => mkEnv s st (Alert msg_run_failed :: post :: tr)
  end.
Proof.
  destruct s as [en ? ? ?]; cbn in Hon; subst en.
  destruct r; reflexivity.
Qed.

Lemma run_enabled_outcomes_witness :
  autoTradeEnabled (mkTrade true JNull JNull (JArr [])) = true /\
  snd (runAutoTrade (Resolved (JArr []))
         (mkEnv (mkTrade true JNull JNull (JArr [])) ∅ []))
  = mkEnv (mkTrade true (JArr []) JNull (JArr [])) ∅
          [Alert msg_run_done; Request "POST" "/trade/auto" (JObj [])].
Proof.
  split; [reflexivity |].
  exact (run_enabled_outcomes (Resolved (JArr [])) (mkTrade true JNull JNull (JArr []))
           ∅ [] eq_refl).
Defined.


End TradeExtra.

Module SessionExtra.
Import Session Layout Gateway.

(** After [syncAccountState], whatever the login state and the response,
    the stored account marker is ["true"] exactly when [hasAccount] is
    set, no other storage key changes, [hasAccount] is set exactly when
    the user is logged in and the response reports [has_config], and a
    request is sent only when logged in. *)
Theorem sync_marker_matches_flag (li : bool) (r : response) (s : layout_state)
    (st : storage) (tr : list effect) :
  let e' := snd (syncAccountState li r (mkEnv s st tr)) in
  store e' !! ACCOUNT = (if hasAccount (page e') then Some (JStr "true") else None) /\
  delete ACCOUNT (store e') = delete ACCOUNT st /\
  hasAccount (page e') =
    li && match r with Resolved d => truthy (get_opt d "has_config") | Rejected _ => false end /\
  trace e' = (if li then
                [Request "GET" "/me/account"
                   (match st !! TOKEN with Some v => v | None => JNull end)]
              else []) ++ tr.
Proof.
  unfold syncAccountState, setHasAccount.
  destruct li; run_handler.
  - destruct r as [d | x]; run_handler.
    + destruct (truthy (get_opt d "has_config")); cbn.
      * rewrite lookup_insert_eq, delete_insert_eq. repeat split.
      * rewrite lookup_delete_eq, delete_delete_eq. repeat split.
    + rewrite lookup_delete_eq, delete_delete_eq. repeat split.
  - rewrite lookup_delete_eq, delete_delete_eq. repeat split.
Qed.

(** [guardedNavigate] sends no request and changes neither the page nor
    the storage; it performs exactly one navigation, preceded by one alert
    exactly when a requirement fails, and goes to the requested path when
    none does. *)
Theorem guard_one_navigation (li : bool) (path : string) (o : nav_options)
    (s : layout_state) (st : storage) (tr : list effect) :
  let e' := snd (guardedNavigate li path o (mkEnv s st tr)) in
  let ok := implb (requireLogin o) li && implb (requireAccount o) (hasAccount s) in
  page e' = s /\ store e' = st /\
  (if ok then trace e' = Navigate path :: tr
   else exists p m, trace e' = Navigate p :: Alert m :: tr).
Proof.
  destruct o as [[] []], li, s as [[]]; cbn;
    repeat split; eauto.
Qed.

(** A successful login whose response is an object stores its [token] and
    [name] (changing no other key) and returns the response; the request
    interceptor then attaches that token, and [isLoggedIn] holds, exactly
    when its text is non-empty. *)
Theorem login_success_attaches_token {S} (u p : string)
    (fs : list (string * jsval)) (s : S) (st : storage) (tr : list effect) :
  let res := loginUser u p (Resolved (JObj fs)) (mkEnv s st tr) in
  let st' := store (snd res) in
  fst res = Ret (JObj fs) /\
  st' = <[NAME := assoc "name" fs]> (<[TOKEN := assoc "token" fs]> st) /\
  authorization st' =
    (if stored_text_nonempty (assoc "token" fs) then Some (assoc "token" fs) else None) /\
  isLoggedIn_of st' = stored_text_nonempty (assoc "token" fs).
Proof.
  cbn. unfold authorization, isLoggedIn_of, item_truthy.
  rewrite lookup_insert_ne by keys_neq. rewrite lookup_insert_eq.
  repeat split.
Qed.

(** [logoutUser] after a successful login gives back the storage as it was
    before the login, minus the token and the name: no Authorization
    header is attached any more and [isLoggedIn] is false. *)
Theorem login_then_logout {S} (u p : string) (fs : list (string * jsval))
    (s : S) (st : storage) (tr : list effect) :
  let e1 := snd (loginUser u p (Resolved (JObj fs)) (mkEnv s st tr)) in
  let st2 := store (snd (logoutUser e1)) in
  st2 = delete NAME (delete TOKEN st) /\
  authorization st2 = None /\ isLoggedIn_of st2 = false.
Proof.
  cbn. unfold authorization, isLoggedIn_of.
  assert (Hd : delete NAME (delete TOKEN
                 (<[NAME:=assoc "name" fs]> (<[TOKEN:=assoc "token" fs]> st)))
               = delete NAME (delete TOKEN st) :> storage).
  { rewrite delete_insert_ne by keys_neq. rewrite !delete_insert_eq.
    reflexivity. }
  rewrite Hd. rewrite lookup_delete_ne by keys_neq. rewrite lookup_delete_eq.
  repeat split.
Qed.

(** After the layout's logout button, from any storage and state, no
    Authorization header is attached, [isLoggedIn] is false, a guarded
    navigation that requires login goes to /login, and the account sync
    clears [hasAccount] without a request. *)
Theorem logout_button_locks (s : layout_state) (st : storage) (tr : list effect)
    (path : string) (ra : bool) :
  let e1 := snd (logout_button (mkEnv s st tr)) in
  let li := isLoggedIn_of (store e1) in
  authorization (store e1) = None /\ li = false /\
  trace (snd (guardedNavigate li path (mkOpts true ra) e1))
    = Navigate "/login" :: Alert msg_need_login :: trace e1 /\
  snd (syncAccountState li (Rejected JNull) e1)
    = mkEnv (mkLayout false) (store e1) (trace e1).
Proof.
  unfold logout_button, guardedNavigate, syncAccountState, setHasAccount.
  unfold authorization, isLoggedIn_of, item_truthy.
  run_handler.
  rewrite !lookup_delete_ne by keys_neq. rewrite lookup_delete_eq. cbn.
  rewrite delete_delete_eq. repeat split.
Qed.

(** [checkAuth] without a truthy stored token returns [null] and does
    nothing; with one it sends a single GET /me carrying that token and
    returns the body, or rethrows the rejection; it never writes the
    storage. *)
Theorem check_auth_outcomes {S} (r : response) (s : S) (st : storage)
    (tr : list effect) :
  checkAuth r (mkEnv s st tr) =
  match st !! TOKEN with
  | Some v =>
      if stored_text_nonempty v then
        (match r with Resolved d => Ret d | Rejected x => Throw x end,
         mkEnv s st (Request "GET" "/me" v :: tr))
      else (Ret JNull, mkEnv s st tr)
  | None => (Ret JNull, mkEnv s st tr)
  end.
Proof.
  unfold checkAuth, lookupItem, item_truthy, bind; cbn.
  destruct (st !! TOKEN) as [v |]; [| reflexivity].
  destruct (stored_text_nonempty v), r; reflexivity.
Qed.

End SessionExtra.

Module PagesExtra.
Import Session.

(** The login form: with an empty id or password it only sets the
    "required" status, with no request and no storage write.  Otherwise it
    posts the credentials; a rejection leaves the storage untouched and
    shows the server's [detail] (or the fallback text), and a success on
    an object response stores token and name, shows success and schedules
    the navigation to "/". *)
Theorem login_submit_outcomes (r : response) (s : LoginPage.login_state)
    (st : storage) (tr : list effect) :
  let u := LoginPage.form_username s in
  let p := LoginPage.form_password s in
  let e' := snd (LoginPage.handleSubmit r (mkEnv s st tr)) in
  if String.eqb u "" || String.eqb p "" then
    e' = mkEnv (LoginPage.mkLogin u p LoginPage.StRequired) st tr
  else
    match r with
    | Rejected x =>
        store e' = st /\
        match x with
        | JUndef | JNull => LoginPage.status (page e') = LoginPage.StLoggingIn
        | _ => LoginPage.status (page e') =
                 LoginPage.StFailed
                   (js_or (get_opt (get_opt (get_opt x "response") "data") "detail")
                          (JStr "unknown error"))
        end
    | Resolved (JObj fs) =>
        store e' = <[NAME := assoc "name" fs]> (<[TOKEN := assoc "token" fs]> st) /\
        LoginPage.status (page e') = LoginPage.StSuccess /\
        hd_error (trace e') = Some (Navigate "/")
    | Resolved _ => True
    end.
Proof.
  destruct s as [u p st0].
  unfold LoginPage.handleSubmit, LoginPage.setStatus, LoginPage.error_detail,
    loginUser.
  run_handler.
  destruct (String.eqb u "" || String.eqb p ""); [reflexivity |].
  destruct r as [[] | []]; run_handler; repeat split.
Qed.

(** The signup form never writes the storage.  A missing field or a
    password differing from its confirmation is reported without any
    request; otherwise the form posts to /signup and, on success, reports
    success and schedules the navigation to /login, or, on a rejection,
    shows the server's [detail] or the fallback text. *)
Theorem signup_submit_outcomes (r : response) (s : SignupPage.signup_state)
    (st : storage) (tr : list effect) :
  let e' := snd (SignupPage.handleSubmit r (mkEnv s st tr)) in
  store e' = st /\
  if String.eqb (SignupPage.f_username s) "" || String.eqb (SignupPage.f_password s) ""
     || String.eqb (SignupPage.f_confirm s) "" || String.eqb (SignupPage.f_name s) "" then
    SignupPage.error (page e') = SignupPage.ErrRequired /\ trace e' = tr
  else if negb (String.eqb (SignupPage.f_password s) (SignupPage.f_confirm s)) then
    SignupPage.error (page e') = SignupPage.ErrMismatch /\ trace e' = tr
  else
    match r with
    | Resolved _ =>
        SignupPage.success (page e') = true /\
        SignupPage.error (page e') = SignupPage.ErrNone /\
        hd_error (trace e') = Some (Navigate "/login")
    | Rejected x =>
        SignupPage.success (page e') = false /\
        match x with
        | JUndef | JNull => SignupPage.error (page e') = SignupPage.ErrNone
        | _ => SignupPage.error (page e') =
                 SignupPage.ErrServer
                   (js_or (get_opt (get_opt (get_opt x "response") "data") "detail")
                          (JStr "signup failed"))
        end
    end.
Proof.
  destruct s as [u p c n er su].
  unfold SignupPage.handleSubmit, SignupPage.setError, SignupPage.setSuccess,
    Gateway.registerUser.
  run_handler.
  destruct (String.eqb u "" || String.eqb p "" || String.eqb c "" || String.eqb n "");
    [repeat split |].
  destruct (negb (String.eqb p c)); [repeat split |].
  destruct r as [d | []]; run_handler; repeat split.
Qed.

(** [loadAccount] on a response reporting [has_config] shows it, takes
    [Boolean(real_mode)] and stores the account marker; on one that does
    not, it removes the marker but keeps the previously shown account and
    mode. *)
Theorem load_account_success (d : jsval) (s : Account.account_state)
    (st : storage) (tr : list effect) :
  let e' := snd (Account.loadAccount (Resolved d) (mkEnv s st tr)) in
  let tok := match st !! TOKEN with Some v => v | None => JNull end in
  trace e' = Request "GET" "/me/account" tok :: tr /\
  if truthy (get_opt d "has_config") then
    page e' = Account.mkAccount d (truthy (get_opt d "real_mode")) (Account.balanceParsed s) /\
    store e' = <[ACCOUNT := JStr "true"]> st
  else page e' = s /\ store e' = delete ACCOUNT st.
Proof.
  destruct s.
  unfold Account.loadAccount, Account.setSavedAccount, Account.setRealMode.
  destruct d; run_handler; try (destruct (truthy (assoc "has_config" fields)));
    run_handler; repeat split.
Qed.

(** [saveAccount] sends one PUT with the token, the form and the current
    mode; on success it shows the saved account and stores the account
    marker, on failure it changes neither the page nor the storage; either
    way it alerts. *)
Theorem save_account_outcomes (no code key secret : string) (r : response)
    (s : Account.account_state) (st : storage) (tr : list effect) :
  let tok := match st !! TOKEN with Some v => v | None => JNull end in
  let put := Request "PUT" "/me/account"
               (JObj [("token", tok);
                      ("body", JObj [("account_no", JStr no);
                                     ("account_code", JStr code);
                                     ("kis_app_key", JStr key);
                                     ("kis_app_secret", JStr secret);
                                     ("real_mode", JBool (Account.realMode s))])]) in
  snd (AccountSave.saveAccount no code key secret r (mkEnv s st tr)) =
  match r with
  | Resolved d =>
      mkEnv (Account.mkAccount d (Account.realMode s) (Account.balanceParsed s))
            (<[ACCOUNT := JStr "true"]> st) (Alert AccountSave.msg_saved :: put :: tr)
  | Rejected _ => mkEnv s st (Alert AccountSave.msg_save_failed :: put :: tr)
  end.
Proof. destruct s, r; reflexivity. Qed.

End PagesExtra.

Module OrderRiskExtra.
Import RiskPage ManualTradePage.

(** [saveRisk] never changes the page itself: it PUTs the rule to
    /settings/risk/<stock>, with "ALL" for an empty stock field, each empty
    number field sent as [null], [active] true exactly for "on", and the
    X-API-Key header only for a non-empty key.  On success it alerts and
    only then starts the list reload, whose answer replaces the list (a
    failed reload keeps it silently); on failure it alerts and reloads
    nothing. *)
Theorem save_risk_then_reload (Number : string -> jsval) (r r2 : response)
    (s : risk_page) (st : storage) (tr : list effect) :
  let stock := if String.eqb (riskStock s) "" then "ALL" else riskStock s in
  let put := Request "PUT" ("/settings/risk/" ++ stock)
               (JObj [("data", risk_payload Number s); ("headers", risk_headers s)]) in
  let get := Request "GET" "/settings/risk" JUndef in
  let e1 := snd (saveRisk Number r (mkEnv s st tr)) in
  risk_payload Number s =
    JObj [("max_position_shares",
             if String.eqb (riskMaxQty s) "" then JNull else Number (riskMaxQty s));
          ("max_weight_pct",
             if String.eqb (riskMaxPct s) "" then JNull else Number (riskMaxPct s));
          ("max_daily_buy_amount",
             if String.eqb (riskMaxDailyBuy s) "" then JNull
             else Number (riskMaxDailyBuy s));
          ("active", JBool (String.eqb (riskActive s) "on"))] /\
  risk_headers s = (if String.eqb (riskKey s) "" then JObj []
                    else JObj [("X-API-Key", JStr (riskKey s))]) /\
  match r with
  | Resolved _ =>
      e1 = mkEnv s st (get :: Alert msg_risk_saved :: put :: tr) /\
      riskList (page (snd (loadRisk_resume r2 e1))) =
        match r2 with Resolved d => d | Rejected _ => riskList s end /\
      trace (snd (loadRisk_resume r2 e1)) = trace e1
  | Rejected _ => e1 = mkEnv s st (Alert msg_risk_failed :: put :: tr)
  end.
Proof.
  split; [reflexivity |]. split; [reflexivity |].
  destruct s; destruct r; [| reflexivity].
  split; [reflexivity |]. destruct r2; split; reflexivity.
Qed.

Definition with_order (s : mt_state) (res : jsval) (ld : bool) : mt_state :=
  mkMT (orderStock s) (orderQty s) (orderSide s) res false (history s)
       (historyFilter s) ld.

(** [sendOrder] with an empty stock code only alerts.  Otherwise it posts
    one market order and always ends with [sending] false.  On success it
    shows the result, alerts, and then starts the history refresh: the
    loading flag is set and the history GET goes out after the order.  On a
    rejection it alerts and shows [err.response?.data || {}], and sends no
    history request. *)
Theorem send_order_outcomes (Number : jsval -> jsval) (r : response)
    (s : mt_state) (st : storage) (tr : list effect) :
  snd (sendOrder Number r (mkEnv s st tr)) =
  if String.eqb (orderStock s) "" then mkEnv s st (Alert msg_need_stock :: tr)
  else
    match r with
    | Resolved d =>
        mkEnv (with_order s d true) st
              (history_req (historyFilter s) :: Alert msg_order_ok
                 :: order_req Number s :: tr)
    | Rejected x =>
        mkEnv (with_order s
                 (match x with
                  | JUndef | JNull => orderResult s
                  | _ => js_or (get_opt (get_opt x "response") "data") (JObj [])
                  end) (loadingHistory s)) st
              (Alert msg_order_failed :: order_req Number s :: tr)
    end.
Proof.
  destruct s as [stock ? ? ? ? ? ? ?].
  unfold sendOrder, try_finally, fetchHistory_start, setSending, setOrderResult,
    setLoadingHistory.
  run_handler.
  destruct (String.eqb stock ""); [reflexivity |].
  destruct r as [d | []]; reflexivity.
Qed.

(** The end of a history refresh always clears the loading flag; a
    successful answer replaces the history, with [[]] for a [null] or
    otherwise falsy body, and a failed one keeps it and alerts. *)
Theorem history_resume_outcomes (r : response) (s : mt_state)
    (st : storage) (tr : list effect) :
  snd (fetchHistory_resume r (mkEnv s st tr)) =
  match r with
  | Resolved d =>
      mkEnv (mkMT (orderStock s) (orderQty s) (orderSide s) (orderResult s)
                  (sending s) (if truthy d then d else JArr []) (historyFilter s) false)
            st tr
  | Rejected _ =>
      mkEnv (mkMT (orderStock s) (orderQty s) (orderSide s) (orderResult s)
                  (sending s) (history s) (historyFilter s) false)
            st (Alert ReadModels.msg_history_failed :: tr)
  end.
Proof. destruct s, r; reflexivity. Qed.

End OrderRiskExtra.

Module ReadModelExtra.
Import Account ReadModels.

(** A balance response whose body is [null] or [undefined] makes the
    [raw] read throw; the error is caught, an alert is raised and the
    page is kept. *)
Theorem balance_null_body (d : jsval) (s : account_state) (st : storage)
    (tr : list effect) (Hd : d = JNull \/ d = JUndef) :
  snd (fetchBalance (Resolved d) (mkEnv s st tr))
  = mkEnv s st (Alert msg_balance_failed :: ReadModelProps.balance_req :: tr).
Proof. destruct Hd; subst; destruct s; reflexivity. Qed.

Lemma balance_null_body_witness :
  (JNull = JNull \/ JNull = JUndef) /\
  snd (fetchBalance (Resolved JNull) (mkEnv (mkAccount JNull false JNull) ∅ []))
  = mkEnv (mkAccount JNull false JNull) ∅
          [Alert msg_balance_failed; ReadModelProps.balance_req].
Proof.
  split; [left; reflexivity |].
  exact (balance_null_body JNull (mkAccount JNull false JNull) ∅ [] (or_introl eq_refl)).
Defined.

(** [loadData] sends the chart and the indicator requests together; when
    both succeed and the chart body is an object, the candles become its
    [candles] ([[]] when missing or falsy) and the indicator the second
    body, with no alert; a [null] chart body is caught, alerted, and leaves
    the page as it was. *)
Theorem load_data_success (code : jsval) (d1 d2 : jsval) (s : chart_state)
    (st : storage) (tr : list effect) :
  let reqs := Request "GET" "/indicator" (JObj [("stock_code", code)])
              :: Request "GET" "/chart" (JObj [("stock_code", code); ("limit", JNum 120)])
              :: tr in
  let e' := snd (loadData code (Resolved d1) (Resolved d2) (mkEnv s st tr)) in
  match d1 with
  | JObj fs =>
      e' = mkEnv (mkChart (if truthy (assoc "candles" fs) then assoc "candles" fs
                           else JArr []) d2) st reqs
  | JUndef | JNull => e' = mkEnv s st (Alert msg_chart_failed :: reqs)
  | _ => e' = mkEnv (mkChart (JArr []) d2) st reqs
  end.
Proof. destruct s, d1; reflexivity. Qed.

End ReadModelExtra.
